(** * Adaptive lightning: colour-temperature curve and controller

    A shallow embedding of
    [components/adaptive_lightning/adaptive_lightning.cpp].

    Conventions of the embedding:
    - a C++ [float] or [double] is idealised as a real number ([R]): the
      arithmetic is exact, and NaN, infinities and rounding error of the
      machine formats are outside the model.  The theorems therefore state
      bounds, which the machine formats keep up to their representation
      error, and not the exact 0.1 step of a result, which the rounding
      ahead of [roundf] can move to the neighbouring step; and those about
      the value of the curve assume [sunrise < sunset], since for
      [sunrise = sunset = now] the C++ division is 0/0;
    - a [time_t] is an integer ([Z]);
    - the component's collaborators (the light and the sun provider) are read
      through a [World] snapshot passed to every entry point; a light call
      that the component performs is returned in the list of emitted calls,
      and the notifications the light sends in response are entry points of
      their own, run on the component the caller returns;
    - logging is omitted. *)

From Stdlib Require Import Reals ZArith Lra Lia List Bool.
Import ListNotations.

Open Scope R_scope.

(** ** The functions of [<cmath>] the component uses *)
Module std.

Definition fabs (x : R) : R := Rabs x.

Definition tanh (x : R) : R := Rtrigo_def.tanh x.

(** Inverse hyperbolic tangent, on (-1, 1). *)
Definition atanh (x : R) : R := / 2 * ln ((1 + x) / (1 - x)).

(** [std::pow] for a base [x >= 0] (the component only calls it on a
    [fabs]): [pow(0, 0) = 1], [pow(0, y) = 0] for [y > 0], and
    [exp (y * ln x)] for [x > 0].  [pow(0, y)] for [y < 0] is infinite in
    C++ and outside the model. *)
Definition pow (x y : R) : R :=
  if Req_dec_T x 0 then (if Req_dec_T y 0 then 1 else 0) else Rpower x y.

(** Largest integer not above [x]. *)
Definition floor (x : R) : Z := Int_part x.

(** [std::roundf]: nearest integer, halfway cases away from zero. *)
Definition roundf (x : R) : R :=
  if Rle_dec 0 x then IZR (floor (x + / 2)) else - IZR (floor (- x + / 2)).

(** Comparisons as the booleans a C++ condition yields. *)
Definition lt (x y : R) : bool := if Rlt_dec x y then true else false.
Definition gt (x y : R) : bool := lt y x.

End std.

(** ** The curve: [smooth_transition] and [calc_color_temperature] *)
Module Curve.

(** The constants of [smooth_transition]. *)
Definition y1 : R := 0.00001.
Definition y2 : R := 0.999.
Definition a : R := std.atanh (2 * y2 - 1) - std.atanh (2 * y1 - 1).
Definition b : R := - (std.atanh (2 * y1 - 1) / a).

(** [x] in [0, 1]. *)
Definition smooth_transition (x y_min y_max speed : R) : R :=
  let x_adj := std.pow (std.fabs (1 - x * 2)) speed in
  y_min + (y_max - y_min) * 0.5 * (std.tanh (a * (x_adj - b)) + 1).

(** For [sunrise = sunset = now] the position is 0/0, a NaN in C++: that
    input is outside the model. *)
Definition calc_color_temperature (now sunrise sunset : Z)
    (min_mireds max_mireds speed : R) : R :=
  if ((now <? sunrise) || (now >? sunset))%Z then max_mireds
  else
    let position := IZR (now - sunrise) / IZR (sunset - sunrise) in
    let mireds := smooth_transition position min_mireds max_mireds speed in
    (* Round to one decimal place *)
    std.roundf (mireds * 10) / 10.

End Curve.

(** ** The controller *)
Module Controller.

(** [switch_::SwitchRestoreMode]. *)
Inductive SwitchRestoreMode : Type :=
| SWITCH_ALWAYS_OFF
| SWITCH_ALWAYS_ON
| SWITCH_RESTORE_DEFAULT_OFF
| SWITCH_RESTORE_DEFAULT_ON
| SWITCH_RESTORE_INVERTED_DEFAULT_OFF
| SWITCH_RESTORE_INVERTED_DEFAULT_ON
| SWITCH_RESTORE_DISABLED.

Definition is_always_on (m : SwitchRestoreMode) : bool :=
  match m with SWITCH_ALWAYS_ON => true | _ => false end.

(** [light_->remote_values]: what the light reports. *)
Record LightColorValues : Type := {
  is_on : bool;
  get_color_temperature : R;
  get_brightness : R
}.

(** What the sun provider answers during one call: [get_time()->now()],
    and [sunrise(today, sunrise_elevation_)] and
    [sunset(today, sunset_elevation_)], each absent when the event does not
    happen that day. *)
Record Sun : Type := {
  now : Z;
  sunrise : option Z;
  sunset : option Z
}.

(** The collaborators as one entry point sees them; [None] is a null
    pointer. *)
Record World : Type := {
  light_ : option LightColorValues;
  sun_ : option Sun
}.

(** A [LightCall] as the component fills it before [perform()]. *)
Record LightCall : Type := {
  color_temperature : R;
  brightness : R;
  transition_length : option Z
}.

Record AdaptiveLightningComponent : Type := {
  (* configuration *)
  min_mireds_ : R;
  max_mireds_ : R;
  speed_ : R;
  transition_length_ : Z;
  restore_mode : SwitchRestoreMode;
  (* mutable state *)
  state : bool;
  last_requested_color_temp_ : R;
  previous_light_state_ : bool
}.

Definition set_state (v : bool) (c : AdaptiveLightningComponent) :=
  {| min_mireds_ := min_mireds_ c; max_mireds_ := max_mireds_ c;
     speed_ := speed_ c; transition_length_ := transition_length_ c;
     restore_mode := restore_mode c;
     state := v;
     last_requested_color_temp_ := last_requested_color_temp_ c;
     previous_light_state_ := previous_light_state_ c |}.

Definition set_last_requested_color_temp_ (v : R)
    (c : AdaptiveLightningComponent) :=
  {| min_mireds_ := min_mireds_ c; max_mireds_ := max_mireds_ c;
     speed_ := speed_ c; transition_length_ := transition_length_ c;
     restore_mode := restore_mode c;
     state := state c;
     last_requested_color_temp_ := v;
     previous_light_state_ := previous_light_state_ c |}.

Definition set_previous_light_state_ (v : bool)
    (c : AdaptiveLightningComponent) :=
  {| min_mireds_ := min_mireds_ c; max_mireds_ := max_mireds_ c;
     speed_ := speed_ c; transition_length_ := transition_length_ c;
     restore_mode := restore_mode c;
     state := state c;
     last_requested_color_temp_ := last_requested_color_temp_ c;
     previous_light_state_ := v |}.

(** Modelled from the spec: [Switch::publish_state] of the switch base class
    (not in the source file), "update [enabled], publish the new state": the
    switch's [state] takes the published value. *)
Definition publish_state (v : bool) (c : AdaptiveLightningComponent) :=
  set_state v c.

(** Modelled from the spec: [force_next_update] is declared in the
    component's header (not in the source file).  The spec has it "bypass
    any skip if unchanged optimization so a subsequent transition-complete
    notification still triggers a real update"; the only such test is the
    dead-band of [update] against [last_requested_color_temp_], whose unset
    value ("until first command") is 0, the value
    [handle_light_state_change] excludes with
    [last_requested_color_temp_ > 0]. *)
Definition force_next_update (c : AdaptiveLightningComponent) :=
  set_last_requested_color_temp_ 0 c.

(** Modelled from the spec: the three-argument call
    [calc_color_temperature(now, sunrise, sunset)] takes the remaining
    arguments from the header (not in the source file); the spec passes the
    configured minimum, maximum and speed. *)
Definition calc_color_temperature (c : AdaptiveLightningComponent)
    (now sunrise sunset : Z) : R :=
  Curve.calc_color_temperature now sunrise sunset
    (min_mireds_ c) (max_mireds_ c) (speed_ c).

(** Every entry point maps the component to its next value and the light
    calls it performed, oldest first. *)
Definition Step : Type :=
  AdaptiveLightningComponent -> AdaptiveLightningComponent * list LightCall.

(** The call [update] fills for a target: the colour temperature, the
    light's present brightness ("otherwise it might not get recalculated
    properly") and, when one is configured, the transition length. *)
Definition call_for (c : AdaptiveLightningComponent) (light : LightColorValues)
    (mireds : R) : LightCall :=
  {| color_temperature := mireds;
     brightness := get_brightness light;
     transition_length :=
       if (transition_length_ c >? 0)%Z
       then Some (transition_length_ c) else None |}.

Definition update (w : World) : Step := fun c =>
  match light_ w, sun_ w with
  | Some light, Some sun =>
    if negb (state c) then (c, [])
    else if negb (is_on light) then (c, [])
    else
      match sunrise sun, sunset sun with
      | Some sunrise_ts, Some sunset_ts =>
        (* Calculate *)
        let mireds := calc_color_temperature c (now sun) sunrise_ts sunset_ts in
        (* Compare if < 0.1 difference *)
        if std.lt (std.fabs (mireds - last_requested_color_temp_ c)) 0.1
        then (c, [])
        else
          (set_last_requested_color_temp_ mireds c, [call_for c light mireds])
      | _, _ => (c, [])
      end
  | _, _ => (c, [])
  end.

Definition write_state (w : World) (new_state : bool) : Step := fun c =>
  if negb (Bool.eqb (state c) new_state) then
    let c1 := force_next_update c in
    let c2 := publish_state new_state c1 in
    let '(c3, calls) := update w c2 in
    (* Force update again, to update color after turn-on transition *)
    (force_next_update c3, calls)
  else (c, []).

Definition handle_light_state_change (w : World) : Step := fun c =>
  match light_ w with
  | None => (c, [])
  | Some light =>
    let current_state := is_on light in
    let '(c', calls) :=
      (* Light is on *)
      if current_state then
        let current_temp := get_color_temperature light in
        (* Check if we have a previous temperature set and if it differs *)
        if state c && std.gt (last_requested_color_temp_ c) 0
           && std.gt (std.fabs (current_temp - last_requested_color_temp_ c)) 0.1
        then write_state w false c
        else if negb (previous_light_state_ c) && negb (state c)
                && is_always_on (restore_mode c)
        then write_state w true c
        else (c, [])
      else (c, []) in
    (set_previous_light_state_ current_state c', calls)
  end.

Definition handle_target_state_reached (w : World) : Step := fun c =>
  match light_ w with
  | None => (c, [])
  | Some _ =>
    (* We rely on previous_light_state_ was set in handle_light_state_change *)
    if previous_light_state_ c && state c then update w c else (c, [])
  end.

End Controller.

(** ** Scenarios: the spec's 06:00 - 18:00 day with bounds 153 - 500 *)
Module Scenario.
Import Controller.

(** The day seen at 12:00. *)
Definition noon : Sun :=
  {| now := 43200; sunrise := Some 21600%Z; sunset := Some 64800%Z |}.

(** A day on which the sun neither rises nor sets. *)
Definition polar_night : Sun :=
  {| now := 43200; sunrise := None; sunset := None |}.

Definition light_at (on : bool) (mireds : R) : LightColorValues :=
  {| is_on := on; get_color_temperature := mireds; get_brightness := 1 |}.

Definition world (light : LightColorValues) (sun : Sun) : World :=
  {| light_ := Some light; sun_ := Some sun |}.

(** A component restoring always-on, with no transition configured. *)
Definition component (enabled : bool) (last_requested : R) (previous : bool)
    : AdaptiveLightningComponent :=
  {| min_mireds_ := 153; max_mireds_ := 500; speed_ := 1;
     transition_length_ := 0; restore_mode := SWITCH_ALWAYS_ON;
     state := enabled;
     last_requested_color_temp_ := last_requested;
     previous_light_state_ := previous |}.

End Scenario.


(** ** Start-up: [setup] *)
Module Setup.
Import Controller.

(** [light::LightTraits]: the colour-temperature range the light supports. *)
Record LightTraits : Type := {
  get_min_mireds : R;
  get_max_mireds : R
}.

Definition le (x y : R) : bool := if Rle_dec x y then true else false.

Definition set_min_mireds_ (v : R) (c : AdaptiveLightningComponent) :=
  {| min_mireds_ := v; max_mireds_ := max_mireds_ c;
     speed_ := speed_ c; transition_length_ := transition_length_ c;
     restore_mode := restore_mode c;
     state := state c;
     last_requested_color_temp_ := last_requested_color_temp_ c;
     previous_light_state_ := previous_light_state_ c |}.

Definition set_max_mireds_ (v : R) (c : AdaptiveLightningComponent) :=
  {| min_mireds_ := min_mireds_ c; max_mireds_ := v;
     speed_ := speed_ c; transition_length_ := transition_length_ c;
     restore_mode := restore_mode c;
     state := state c;
     last_requested_color_temp_ := last_requested_color_temp_ c;
     previous_light_state_ := previous_light_state_ c |}.

(** [setup], given [light_->get_traits()] ([None] when [light_] is null).
    Registering the two callbacks is what makes
    [handle_light_state_change] and [handle_target_state_reached] entry
    points; it changes nothing in the component. *)
Definition setup (traits : option LightTraits)
    (c : AdaptiveLightningComponent) : AdaptiveLightningComponent :=
  let c2 :=
    match traits with
    | Some traits =>
      let c1 :=
        if le (min_mireds_ c) 0
        then set_min_mireds_ (get_min_mireds traits) c else c in
      if le (max_mireds_ c1) 0
      then set_max_mireds_ (get_max_mireds traits) c1 else c1
    | None => c
    end in
  if is_always_on (restore_mode c2) then publish_state true c2 else c2.

End Setup.

(** ** The configuration *)
Module Frame.
Import Controller.

(** The part of the component that the code generator sets and [setup]
    completes; [c'] has it as [c] does. *)
Definition same_configuration (c c' : AdaptiveLightningComponent) : Prop :=
  min_mireds_ c' = min_mireds_ c /\ max_mireds_ c' = max_mireds_ c /\
  speed_ c' = speed_ c /\ transition_length_ c' = transition_length_ c /\
  restore_mode c' = restore_mode c.

(** The day lets [update] command the light: the light is on, the sun
    provider is there, sunrise and sunset are known with the sunrise first,
    and the target of the curve is at least 0.1 away from the unset value 0
    of [last_requested_color_temp_]. *)
Definition update_ready (w : World) (light : LightColorValues) (sun : Sun)
    (sunrise_ts sunset_ts : Z) (c : AdaptiveLightningComponent) : Prop :=
  light_ w = Some light /\ is_on light = true /\ sun_ w = Some sun /\
  sunrise sun = Some sunrise_ts /\ sunset sun = Some sunset_ts /\
  (sunrise_ts < sunset_ts)%Z /\
  0.1 <= std.fabs (calc_color_temperature c (now sun) sunrise_ts sunset_ts).

(** The sun provider is absent, or cannot tell the day's sunrise or
    sunset. *)
Definition no_day (w : World) : Prop :=
  sun_ w = None \/
  exists sun, sun_ w = Some sun /\ (sunrise sun = None \/ sunset sun = None).

End Frame.

(** ** Facts about the [<cmath>] functions *)
Module stdFacts.
Import std.

Lemma lt_true_iff (x y : R) : lt x y = true <-> x < y.
Proof.
  unfold lt. destruct (Rlt_dec x y) as [H | H]; split; intro K;
    try reflexivity; try assumption; try discriminate; contradiction.
Qed.

Lemma lt_false_iff (x y : R) : lt x y = false <-> y <= x.
Proof.
  unfold lt. destruct (Rlt_dec x y) as [H | H]; split; intro K;
    try reflexivity; try discriminate; lra.
Qed.

Lemma gt_true_iff (x y : R) : gt x y = true <-> x > y.
Proof. unfold gt. rewrite lt_true_iff. unfold Rgt. tauto. Qed.

Lemma gt_false_iff (x y : R) : gt x y = false <-> x <= y.
Proof. unfold gt. apply lt_false_iff. Qed.

(** *** [floor] *)

Lemma floor_bounds (x : R) : IZR (floor x) <= x < IZR (floor x) + 1.
Proof.
  unfold floor. destruct (base_Int_part x) as [Hlo Hhi]. split; lra.
Qed.

Lemma floor_unique (x : R) (z : Z) : IZR z <= x < IZR z + 1 -> floor x = z.
Proof.
  intros [Hlo Hhi]. unfold floor. symmetry. apply Int_part_spec. split; lra.
Qed.

Lemma floor_le (x y : R) : x <= y -> (floor x <= floor y)%Z.
Proof.
  intro Hxy.
  destruct (floor_bounds x) as [Hx _]. destruct (floor_bounds y) as [_ Hy].
  assert (H : IZR (floor x) < IZR (floor y + 1)) by (rewrite plus_IZR; lra).
  apply lt_IZR in H. lia.
Qed.

Lemma floor_IZR_half (z : Z) : floor (IZR z + / 2) = z.
Proof. apply floor_unique. split; lra. Qed.

(** *** [roundf] *)

Lemma roundf_IZR (z : Z) : roundf (IZR z) = IZR z.
Proof.
  unfold roundf. destruct (Rle_dec 0 (IZR z)) as [H | H].
  - now rewrite floor_IZR_half.
  - replace (- IZR z) with (IZR (- z)) by apply opp_IZR.
    rewrite floor_IZR_half, opp_IZR. lra.
Qed.

Lemma roundf_le (x y : R) : x <= y -> roundf x <= roundf y.
Proof.
  intro Hxy. unfold roundf.
  destruct (Rle_dec 0 x) as [Hx | Hx]; destruct (Rle_dec 0 y) as [Hy | Hy];
    try lra.
  - apply IZR_le, floor_le. lra.
  - assert (H1 : (floor 0 <= floor (- x + / 2))%Z) by (apply floor_le; lra).
    assert (H2 : (floor 0 <= floor (y + / 2))%Z) by (apply floor_le; lra).
    assert (H0 : floor 0 = 0%Z) by (apply floor_unique; split; lra).
    rewrite H0 in H1, H2. apply IZR_le in H1, H2. lra.
  - assert (H : (floor (- y + / 2) <= floor (- x + / 2))%Z)
      by (apply floor_le; lra).
    apply IZR_le in H. lra.
Qed.

Lemma roundf_close (x : R) : Rabs (roundf x - x) <= / 2.
Proof.
  unfold roundf. destruct (Rle_dec 0 x) as [Hx | Hx].
  - destruct (floor_bounds (x + / 2)) as [Hlo Hhi].
    apply Rabs_le. split; lra.
  - destruct (floor_bounds (- x + / 2)) as [Hlo Hhi].
    apply Rabs_le. split; lra.
Qed.

(** Rounding cannot cross an integer. *)
Lemma roundf_between (x : R) (m n : Z) :
  IZR m <= x <= IZR n -> IZR m <= roundf x <= IZR n.
Proof.
  intros [Hm Hn]. split.
  - rewrite <- (roundf_IZR m). now apply roundf_le.
  - rewrite <- (roundf_IZR n). now apply roundf_le.
Qed.

Lemma Rabs_bound (x b : R) : Rabs x <= b -> - b <= x <= b.
Proof. unfold Rabs. destruct (Rcase_abs x); intro H; split; lra. Qed.

Lemma roundf_unique (x : R) (z : Z) :
  IZR z - / 2 < x < IZR z + / 2 -> roundf x = IZR z.
Proof.
  intros [Hlo Hhi]. unfold roundf. destruct (Rle_dec 0 x) as [Hx | Hx].
  - f_equal. apply floor_unique. split; lra.
  - rewrite (floor_unique (- x + / 2) (- z)).
    + rewrite opp_IZR. lra.
    + rewrite opp_IZR. split; lra.
Qed.

(** Rounding to one decimal place moves a value by at most 0.05. *)
Lemma round_one_decimal_close (v : R) : Rabs (roundf (v * 10) / 10 - v) <= 0.05.
Proof.
  pose proof (roundf_close (v * 10)) as H.
  apply Rabs_le. apply Rabs_bound in H. split; lra.
Qed.

(** *** [tanh] and [atanh] *)

Lemma tanh_exp2 (x : R) : tanh x = (exp (2 * x) - 1) / (exp (2 * x) + 1).
Proof.
  unfold tanh, Rtrigo_def.tanh, sinh, cosh.
  replace (2 * x) with (x + x) by ring.
  rewrite exp_plus, exp_Ropp.
  pose proof (exp_pos x) as Hpos.
  assert (Hsq : 0 < exp x * exp x) by (apply Rmult_lt_0_compat; assumption).
  field. repeat split; lra.
Qed.

Lemma tanh_bounds (x : R) : -1 < tanh x < 1.
Proof.
  rewrite tanh_exp2. pose proof (exp_pos (2 * x)) as Hpos.
  split.
  - apply Rmult_lt_reg_r with (exp (2 * x) + 1); [lra |].
    unfold Rdiv. rewrite Rmult_assoc, Rinv_l by lra. lra.
  - apply Rmult_lt_reg_r with (exp (2 * x) + 1); [lra |].
    unfold Rdiv. rewrite Rmult_assoc, Rinv_l by lra. lra.
Qed.

Lemma tanh_le (x y : R) : x <= y -> tanh x <= tanh y.
Proof.
  intro Hxy. rewrite !tanh_exp2.
  pose proof (exp_pos (2 * x)) as Hx. pose proof (exp_pos (2 * y)) as Hy.
  assert (Hexp : exp (2 * x) <= exp (2 * y)).
  { destruct Hxy as [Hlt | Heq].
    - left. apply exp_increasing. lra.
    - subst. lra. }
  apply Rmult_le_reg_r with ((exp (2 * x) + 1) * (exp (2 * y) + 1)).
  - apply Rmult_lt_0_compat; lra.
  - replace ((exp (2 * x) - 1) / (exp (2 * x) + 1) *
             ((exp (2 * x) + 1) * (exp (2 * y) + 1)))
      with ((exp (2 * x) - 1) * (exp (2 * y) + 1)) by (field; lra).
    replace ((exp (2 * y) - 1) / (exp (2 * y) + 1) *
             ((exp (2 * x) + 1) * (exp (2 * y) + 1)))
      with ((exp (2 * y) - 1) * (exp (2 * x) + 1)) by (field; lra).
    lra.
Qed.

Lemma atanh_arg_pos (z : R) : -1 < z < 1 -> 0 < (1 + z) / (1 - z).
Proof. intros [Hlo Hhi]. apply Rdiv_lt_0_compat; lra. Qed.

Lemma tanh_atanh (z : R) : -1 < z < 1 -> tanh (atanh z) = z.
Proof.
  intro Hz. rewrite tanh_exp2. unfold atanh.
  replace (2 * (/ 2 * ln ((1 + z) / (1 - z)))) with (ln ((1 + z) / (1 - z)))
    by field.
  rewrite exp_ln by now apply atanh_arg_pos.
  field. lra.
Qed.

Lemma atanh_lt (x y : R) : -1 < x -> x < y -> y < 1 -> atanh x < atanh y.
Proof.
  intros Hx Hxy Hy. unfold atanh.
  apply Rmult_lt_compat_l; [lra |].
  apply ln_increasing; [apply atanh_arg_pos; lra |].
  apply Rmult_lt_reg_r with ((1 - x) * (1 - y)).
  - apply Rmult_lt_0_compat; lra.
  - replace ((1 + x) / (1 - x) * ((1 - x) * (1 - y)))
      with ((1 + x) * (1 - y)) by (field; lra).
    replace ((1 + y) / (1 - y) * ((1 - x) * (1 - y)))
      with ((1 + y) * (1 - x)) by (field; lra).
    lra.
Qed.

(** *** [pow] *)

Lemma pow_0_l (y : R) : 0 < y -> pow 0 y = 0.
Proof.
  intro Hy. unfold pow.
  destruct (Req_dec_T 0 0) as [_ | H]; [| contradiction].
  destruct (Req_dec_T y 0) as [H | _]; [lra | reflexivity].
Qed.

Lemma pow_1_l (y : R) : pow 1 y = 1.
Proof.
  unfold pow. destruct (Req_dec_T 1 0) as [H | _]; [lra |].
  unfold Rpower. rewrite ln_1, Rmult_0_r. apply exp_0.
Qed.

Lemma pow_nonneg (x y : R) : 0 <= pow x y.
Proof.
  unfold pow. destruct (Req_dec_T x 0) as [_ | _].
  - destruct (Req_dec_T y 0); lra.
  - unfold Rpower. left. apply exp_pos.
Qed.

Lemma pow_le_l (x1 x2 y : R) :
  0 < y -> 0 <= x1 <= x2 -> pow x1 y <= pow x2 y.
Proof.
  intros Hy [H0 H12].
  destruct (Req_dec_T x1 0) as [E1 | N1].
  - subst x1. rewrite pow_0_l by assumption. apply pow_nonneg.
  - unfold pow.
    destruct (Req_dec_T x1 0) as [E | _]; [contradiction |].
    destruct (Req_dec_T x2 0) as [E | _]; [lra |].
    apply Rle_Rpower_l; lra.
Qed.

End stdFacts.

(** ** Facts about the curve *)
Module CurveFacts.
Import std stdFacts Curve.

Lemma y1_range : -1 < 2 * y1 - 1 < 1.
Proof. unfold y1. lra. Qed.

Lemma y2_range : -1 < 2 * y2 - 1 < 1.
Proof. unfold y2. lra. Qed.

Lemma a_pos : 0 < a.
Proof.
  unfold a.
  assert (H : atanh (2 * y1 - 1) < atanh (2 * y2 - 1)).
  { apply atanh_lt; unfold y1, y2; lra. }
  lra.
Qed.

(** The calibration: the sigmoid passes through [y1] at 0 and [y2] at 1. *)
Lemma sigmoid_at_0 : tanh (a * (0 - b)) = 2 * y1 - 1.
Proof.
  pose proof a_pos as Ha.
  replace (a * (0 - b)) with (atanh (2 * y1 - 1)) by (unfold b; field; lra).
  apply tanh_atanh, y1_range.
Qed.

Lemma sigmoid_at_1 : tanh (a * (1 - b)) = 2 * y2 - 1.
Proof.
  pose proof a_pos as Ha.
  replace (a * (1 - b)) with (atanh (2 * y2 - 1)).
  - apply tanh_atanh, y2_range.
  - unfold b.
    replace (a * (1 - - (atanh (2 * y1 - 1) / a)))
      with (a + atanh (2 * y1 - 1)) by (field; lra).
    unfold a. ring.
Qed.

Lemma smooth_transition_bounds (x y_min y_max speed : R) :
  y_min <= y_max ->
  y_min <= smooth_transition x y_min y_max speed <= y_max.
Proof.
  intro Hrange. unfold smooth_transition. cbv zeta.
  pose proof (tanh_bounds (a * (pow (fabs (1 - x * 2)) speed - b))) as [Hlo Hhi].
  split; nra.
Qed.

Lemma smooth_transition_edge (x y_min y_max speed : R) :
  fabs (1 - x * 2) = 1 ->
  smooth_transition x y_min y_max speed = y_min + (y_max - y_min) * y2.
Proof.
  intro Hfold. unfold smooth_transition. cbv zeta.
  rewrite Hfold, pow_1_l, sigmoid_at_1. lra.
Qed.

Lemma smooth_transition_centre (x y_min y_max speed : R) :
  0 < speed -> fabs (1 - x * 2) = 0 ->
  smooth_transition x y_min y_max speed = y_min + (y_max - y_min) * y1.
Proof.
  intros Hspeed Hfold. unfold smooth_transition. cbv zeta.
  rewrite Hfold, pow_0_l by assumption. rewrite sigmoid_at_0. lra.
Qed.

(** Inside the window [calc_color_temperature] is the rounded curve. *)
Lemma calc_in_window (now sunrise sunset : Z) (min_mireds max_mireds speed : R) :
  (sunrise <= now <= sunset)%Z ->
  calc_color_temperature now sunrise sunset min_mireds max_mireds speed
  = roundf (smooth_transition (IZR (now - sunrise) / IZR (sunset - sunrise))
              min_mireds max_mireds speed * 10) / 10.
Proof.
  intros [Hlo Hhi]. unfold calc_color_temperature.
  assert (H1 : (now <? sunrise)%Z = false) by (apply Z.ltb_ge; lia).
  assert (H2 : (now >? sunset)%Z = false) by (rewrite Z.gtb_ltb; apply Z.ltb_ge; lia).
  rewrite H1, H2. reflexivity.
Qed.

(** The folded distance of an instant, in seconds from solar noon. *)
Lemma fold_position (now sunrise sunset : Z) :
  (sunrise < sunset)%Z ->
  fabs (1 - IZR (now - sunrise) / IZR (sunset - sunrise) * 2)
  = IZR (Z.abs (sunrise + sunset - 2 * now)) / IZR (sunset - sunrise).
Proof.
  intro Hlt.
  assert (Hd : 0 < IZR (sunset - sunrise)) by (apply IZR_lt; lia).
  replace (1 - IZR (now - sunrise) / IZR (sunset - sunrise) * 2)
    with (IZR (sunrise + sunset - 2 * now) / IZR (sunset - sunrise)).
  - unfold fabs, Rdiv. rewrite Rabs_mult, abs_IZR.
    rewrite (Rabs_pos_eq (/ _)); [reflexivity |].
    left. now apply Rinv_0_lt_compat.
  - rewrite !minus_IZR, plus_IZR, mult_IZR. rewrite minus_IZR in Hd.
    field. lra.
Qed.

(** At solar noon the fold is 0 and the curve sits at its calibrated
    bottom, [y1] of the range above [min_mireds]. *)
Lemma calc_noon (now sunrise sunset : Z) (min_mireds max_mireds speed : R) :
  (sunrise < sunset)%Z -> (2 * now = sunrise + sunset)%Z -> 0 < speed ->
  calc_color_temperature now sunrise sunset min_mireds max_mireds speed
  = roundf ((min_mireds + (max_mireds - min_mireds) * y1) * 10) / 10.
Proof.
  intros Hlt Hnoon Hspeed.
  rewrite calc_in_window by lia.
  rewrite smooth_transition_centre; [reflexivity | assumption |].
  rewrite fold_position by assumption.
  replace (sunrise + sunset - 2 * now)%Z with 0%Z by lia.
  simpl. unfold Rdiv. apply Rmult_0_l.
Qed.

(** At either end of the window the fold is 1 and the curve sits at its
    calibrated top, [y2] of the range above [min_mireds]. *)
Lemma calc_sunrise (sunrise sunset : Z) (min_mireds max_mireds speed : R) :
  (sunrise < sunset)%Z ->
  calc_color_temperature sunrise sunrise sunset min_mireds max_mireds speed
  = roundf ((min_mireds + (max_mireds - min_mireds) * y2) * 10) / 10.
Proof.
  intro Hlt.
  rewrite calc_in_window by lia.
  rewrite smooth_transition_edge; [reflexivity |].
  rewrite fold_position by assumption.
  replace (sunrise + sunset - 2 * sunrise)%Z with (sunset - sunrise)%Z by lia.
  rewrite Z.abs_eq by lia.
  unfold Rdiv. apply Rinv_r. apply not_0_IZR. lia.
Qed.

Lemma calc_sunset (sunrise sunset : Z) (min_mireds max_mireds speed : R) :
  (sunrise < sunset)%Z ->
  calc_color_temperature sunset sunrise sunset min_mireds max_mireds speed
  = roundf ((min_mireds + (max_mireds - min_mireds) * y2) * 10) / 10.
Proof.
  intro Hlt.
  rewrite calc_in_window by lia.
  rewrite smooth_transition_edge; [reflexivity |].
  rewrite fold_position by assumption.
  replace (sunrise + sunset - 2 * sunset)%Z with (- (sunset - sunrise))%Z by lia.
  rewrite Z.abs_opp, Z.abs_eq by lia.
  unfold Rdiv. apply Rinv_r. apply not_0_IZR. lia.
Qed.

(** The curve of the 06:00 - 18:00 window at 12:00 and at 06:00. *)
Lemma calc_noon_153_04 :
  calc_color_temperature 43200 21600 64800 153.04 500 1 = 153.
Proof.
  rewrite calc_noon by (lia || lra).
  rewrite (roundf_unique _ 1530); unfold y1; lra.
Qed.

Lemma calc_noon_153 :
  calc_color_temperature 43200 21600 64800 153 500 1 = 153.
Proof.
  rewrite calc_noon by (lia || lra).
  rewrite (roundf_unique _ 1530); unfold y1; lra.
Qed.

Lemma calc_sunrise_153 :
  calc_color_temperature 21600 21600 64800 153 500 1 = 499.7.
Proof.
  rewrite calc_sunrise by lia.
  rewrite (roundf_unique _ 4997); unfold y2; lra.
Qed.

End CurveFacts.

(** ** Properties of the curve *)
Module CurveSpec.
Import std stdFacts Curve CurveFacts.

(** C5: outside the daylight window, [now < sunrise] or [now > sunset],
    [calc_color_temperature] returns [max_mireds] itself, whatever
    [min_mireds] and [speed] are. *)
Theorem calc_color_temperature_night
    (now sunrise sunset : Z) (min_mireds max_mireds speed : R) :
  (now < sunrise \/ now > sunset)%Z ->
  calc_color_temperature now sunrise sunset min_mireds max_mireds speed
  = max_mireds.
Proof.
  intro Hout. unfold calc_color_temperature.
  assert (H : ((now <? sunrise) || (now >? sunset))%Z = true).
  { apply orb_true_iff. destruct Hout as [Hlt | Hgt].
    - left. apply Z.ltb_lt. assumption.
    - right. rewrite Z.gtb_ltb. apply Z.ltb_lt. lia. }
  rewrite H. reflexivity.
Qed.

(** 23:00 with a 06:00 - 18:00 window and bounds 153 - 500. *)
Lemma calc_color_temperature_night_witness :
  (82800 > 64800)%Z /\
  calc_color_temperature 82800 21600 64800 153 500 1 = 500.
Proof.
  split; [lia |].
  apply (calc_color_temperature_night 82800 21600 64800 153 500 1).
  right. lia.
Defined.

(** C6, as amended: strictly inside the window, with
    [min_mireds <= max_mireds] and [speed > 0], the unrounded curve lies in
    [[min_mireds, max_mireds]], so the result, rounded to one decimal place,
    lies within 0.05 of that interval; it lies in the interval itself when
    both bounds are multiples of 0.1. *)
Theorem calc_color_temperature_range
    (now sunrise sunset : Z) (min_mireds max_mireds speed : R) :
  (sunrise < now < sunset)%Z -> min_mireds <= max_mireds -> 0 < speed ->
  let mireds :=
    calc_color_temperature now sunrise sunset min_mireds max_mireds speed in
  (min_mireds - 0.05 <= mireds <= max_mireds + 0.05) /\
  (forall m n : Z, min_mireds = IZR m / 10 -> max_mireds = IZR n / 10 ->
     min_mireds <= mireds <= max_mireds).
Proof.
  intros Hwin Hrange Hspeed. cbv zeta.
  rewrite calc_in_window by lia.
  set (v := smooth_transition _ min_mireds max_mireds speed).
  pose proof (smooth_transition_bounds
                (IZR (now - sunrise) / IZR (sunset - sunrise))
                min_mireds max_mireds speed Hrange) as Hv.
  fold v in Hv. split.
  - pose proof (round_one_decimal_close v) as Hc.
    apply Rabs_bound in Hc. split; lra.
  - intros m n Hm Hn.
    assert (Hb : IZR m <= roundf (v * 10) <= IZR n).
    { apply roundf_between. split; lra. }
    split; lra.
Qed.

(** 14:00 with a 06:00 - 18:00 window and bounds 153 - 500. *)
Lemma calc_color_temperature_range_witness :
  153 <= calc_color_temperature 50400 21600 64800 153 500 1 <= 500.
Proof.
  assert (Hwin : (21600 < 50400 < 64800)%Z) by lia.
  assert (Hrange : 153 <= 500) by lra.
  assert (Hspeed : 0 < 1) by lra.
  destruct (calc_color_temperature_range 50400 21600 64800 153 500 1
              Hwin Hrange Hspeed) as [_ Hgrid].
  apply (Hgrid 1530%Z 5000%Z); lra.
Defined.

(** C6 as stated fails: with bounds 153.04 - 500 the value at 12:00 is
    153.0, below [min_mireds]. *)
Lemma calc_color_temperature_range_counterexample :
  (21600 < 43200 < 64800)%Z /\ 153.04 <= 500 /\ 0 < 1 /\
  ~ (153.04 <= calc_color_temperature 43200 21600 64800 153.04 500 1 <= 500).
Proof.
  repeat split; try lia; try lra.
  rewrite calc_noon_153_04. lra.
Qed.

(** C2 as stated fails: at sunrise of the 06:00 - 18:00 window with bounds
    153 - 500 the value is 499.7, the warm end, not within 0.01% of the range
    of [min_mireds]. *)
Lemma calc_color_temperature_endpoints_counterexample :
  153 <= 500 /\ (21600 < 64800)%Z /\
  ~ (Rabs (calc_color_temperature 21600 21600 64800 153 500 1 - 153)
       <= 0.0001 * (500 - 153) /\
     Rabs (calc_color_temperature 64800 21600 64800 153 500 1 - 500)
       <= 0.001 * (500 - 153)).
Proof.
  repeat split; try lia; try lra.
  intros [Hsunrise _]. rewrite calc_sunrise_153 in Hsunrise.
  apply Rabs_bound in Hsunrise. lra.
Qed.

(** C2, as amended: for [min_mireds <= max_mireds] and [sunrise < sunset],
    the value at sunrise and the value at sunset are both at the warm end:
    each is within 0.1% of the range, plus the 0.05 of the rounding to one
    decimal place, of [max_mireds]. *)
Theorem calc_color_temperature_endpoints
    (sunrise sunset : Z) (min_mireds max_mireds speed : R) :
  min_mireds <= max_mireds -> (sunrise < sunset)%Z ->
  Rabs (calc_color_temperature sunrise sunrise sunset
          min_mireds max_mireds speed - max_mireds)
  <= 0.001 * (max_mireds - min_mireds) + 0.05 /\
  Rabs (calc_color_temperature sunset sunrise sunset
          min_mireds max_mireds speed - max_mireds)
  <= 0.001 * (max_mireds - min_mireds) + 0.05.
Proof.
  intros Hrange Hlt.
  rewrite calc_sunrise, calc_sunset by assumption. unfold y2.
  pose proof (round_one_decimal_close
                (min_mireds + (max_mireds - min_mireds) * 0.999)) as Hc.
  apply Rabs_bound in Hc. split; apply Rabs_le; split; lra.
Qed.

(** Sunrise of the 06:00 - 18:00 window with bounds 153 - 500. *)
Lemma calc_color_temperature_endpoints_witness :
  Rabs (calc_color_temperature 21600 21600 64800 153 500 1 - 500)
  <= 0.001 * (500 - 153) + 0.05.
Proof.
  assert (Hrange : 153 <= 500) by lra.
  assert (Hlt : (21600 < 64800)%Z) by lia.
  destruct (calc_color_temperature_endpoints 21600 64800 153 500 1 Hrange Hlt)
    as [Hsunrise _].
  exact Hsunrise.
Defined.

(** C3 as stated fails: at 12:00 of the 06:00 - 18:00 window with bounds
    153 - 500 the value is 153.0, not the middle 326.5 of the bounds. *)
Lemma calc_color_temperature_midpoint_counterexample :
  153 <= 500 /\ (21600 < 64800)%Z /\ (2 * 43200 = 21600 + 64800)%Z /\
  calc_color_temperature 43200 21600 64800 153 500 1 = 153 /\
  ~ (Rabs (calc_color_temperature 43200 21600 64800 153 500 1 - (153 + 500) / 2)
       <= 0.05).
Proof.
  repeat split; try lia; try lra.
  - apply calc_noon_153.
  - rewrite calc_noon_153. intro H. apply Rabs_bound in H. lra.
Qed.

(** C3, as amended: for [min_mireds <= max_mireds], [sunrise < sunset] and
    [speed > 0], the value at the midpoint of the window (solar noon,
    position 0.5) is at the cool end: it is within 0.001% of the range, plus
    the 0.05 of the rounding to one decimal place, of [min_mireds]. *)
Theorem calc_color_temperature_midpoint
    (now sunrise sunset : Z) (min_mireds max_mireds speed : R) :
  min_mireds <= max_mireds -> (sunrise < sunset)%Z -> 0 < speed ->
  (2 * now = sunrise + sunset)%Z ->
  Rabs (calc_color_temperature now sunrise sunset min_mireds max_mireds speed
        - min_mireds)
  <= 0.00001 * (max_mireds - min_mireds) + 0.05.
Proof.
  intros Hrange Hlt Hspeed Hnoon.
  rewrite calc_noon by assumption. unfold y1.
  pose proof (round_one_decimal_close
                (min_mireds + (max_mireds - min_mireds) * 0.00001)) as Hc.
  apply Rabs_bound in Hc. apply Rabs_le. split; lra.
Qed.

(** 12:00 with a 06:00 - 18:00 window and bounds 153 - 500. *)
Lemma calc_color_temperature_midpoint_witness :
  Rabs (calc_color_temperature 43200 21600 64800 153 500 1 - 153)
  <= 0.00001 * (500 - 153) + 0.05.
Proof.
  assert (Hrange : 153 <= 500) by lra.
  assert (Hlt : (21600 < 64800)%Z) by lia.
  assert (Hspeed : 0 < 1) by lra.
  assert (Hnoon : (2 * 43200 = 21600 + 64800)%Z) by lia.
  exact (calc_color_temperature_midpoint 43200 21600 64800 153 500 1
           Hrange Hlt Hspeed Hnoon).
Defined.

End CurveSpec.

(** ** Facts about the controller *)
Module ControllerFacts.
Import std stdFacts Controller.

Lemma update_disabled (w : World) (c : AdaptiveLightningComponent) :
  state c = false -> update w c = (c, []).
Proof.
  intro Hoff. unfold update. rewrite Hoff. simpl.
  destruct (light_ w), (sun_ w); reflexivity.
Qed.

(** [update] past all its guards and its dead-band. *)
Lemma update_issues (w : World) (c : AdaptiveLightningComponent)
    (light : LightColorValues) (sun : Sun) (sunrise_ts sunset_ts : Z) :
  light_ w = Some light -> sun_ w = Some sun ->
  state c = true -> is_on light = true ->
  sunrise sun = Some sunrise_ts -> sunset sun = Some sunset_ts ->
  let mireds := calc_color_temperature c (now sun) sunrise_ts sunset_ts in
  0.1 <= fabs (mireds - last_requested_color_temp_ c) ->
  update w c
  = (set_last_requested_color_temp_ mireds c, [call_for c light mireds]).
Proof.
  intros Hlight Hsun Hon Hlit Hrise Hset mireds Hband.
  unfold update. rewrite Hlight, Hsun, Hon, Hlit, Hrise, Hset. simpl.
  fold mireds. apply lt_false_iff in Hband. rewrite Hband. reflexivity.
Qed.

(** Whatever [update] does, it performs at most one call, and one it
    performs carries the value it stored in [last_requested_color_temp_]
    and leaves the component enabled. *)
Lemma update_inv (w : World) (c c1 : AdaptiveLightningComponent)
    (calls : list LightCall) :
  update w c = (c1, calls) ->
  (c1 = c /\ calls = []) \/
  (exists call, calls = [call] /\ state c = true /\
     c1 = set_last_requested_color_temp_ (color_temperature call) c).
Proof.
  unfold update. intro H.
  destruct (light_ w) as [light |]; [| left; inversion H; auto].
  destruct (sun_ w) as [sun |]; [| left; inversion H; auto].
  destruct (state c) eqn:Hon; simpl in H; [| left; inversion H; auto].
  destruct (is_on light); simpl in H; [| left; inversion H; auto].
  destruct (sunrise sun) as [sunrise_ts |]; [| left; inversion H; auto].
  destruct (sunset sun) as [sunset_ts |]; [| left; inversion H; auto].
  destruct (lt _ 0.1); [left; inversion H; auto |].
  right. inversion H. eexists. repeat split.
Qed.

Lemma write_state_same (w : World) (c : AdaptiveLightningComponent) :
  write_state w (state c) c = (c, []).
Proof. unfold write_state. rewrite eqb_reflx. reflexivity. Qed.

Lemma write_state_disable (w : World) (c : AdaptiveLightningComponent) :
  state c = true ->
  write_state w false c
  = (force_next_update (publish_state false (force_next_update c)), []).
Proof.
  intro Hon. unfold write_state. rewrite Hon. simpl.
  rewrite update_disabled by reflexivity. reflexivity.
Qed.

Lemma write_state_enable (w : World) (c : AdaptiveLightningComponent) :
  state c = false ->
  write_state w true c
  = (force_next_update
       (fst (update w (publish_state true (force_next_update c)))),
     snd (update w (publish_state true (force_next_update c)))).
Proof.
  intro Hoff. unfold write_state. rewrite Hoff. simpl.
  destruct (update w _) as [c3 calls]. reflexivity.
Qed.

(** [update] never touches the switch or the remembered light state. *)
Lemma update_frame (w : World) (c : AdaptiveLightningComponent) :
  state (fst (update w c)) = state c /\
  previous_light_state_ (fst (update w c)) = previous_light_state_ c.
Proof.
  destruct (update w c) as [c1 calls] eqn:H.
  apply update_inv in H. destruct H as [[-> _] | [call [_ [_ ->]]]];
    split; reflexivity.
Qed.

(** A second [force_next_update] hides whatever [update] requested. *)
Lemma force_next_update_update (w : World) (c : AdaptiveLightningComponent) :
  force_next_update (fst (update w c)) = force_next_update c.
Proof.
  destruct (update w c) as [c1 calls] eqn:H.
  apply update_inv in H. destruct H as [[-> _] | [call [_ [_ ->]]]];
    reflexivity.
Qed.

(** The light is found on after having been off, the switch is off and
    restores always-on: the switch goes on. *)
Lemma handle_light_state_change_enable
    (w : World) (light : LightColorValues) (c : AdaptiveLightningComponent) :
  light_ w = Some light -> is_on light = true ->
  restore_mode c = SWITCH_ALWAYS_ON -> state c = false ->
  previous_light_state_ c = false ->
  handle_light_state_change w c
  = (set_previous_light_state_ true
       (force_next_update (publish_state true (force_next_update c))),
     snd (update w (publish_state true (force_next_update c)))).
Proof.
  intros Hl Hlit Hmode Hoff Hprev.
  unfold handle_light_state_change. rewrite Hl, Hlit, Hmode, Hoff, Hprev.
  simpl. rewrite write_state_enable by assumption.
  rewrite force_next_update_update. reflexivity.
Qed.

(** Without a day [update] does nothing. *)
Lemma update_no_day (w : World) (c : AdaptiveLightningComponent) :
  Frame.no_day w -> update w c = (c, []).
Proof.
  intros [Hnone | [sun [Hsun Hday]]]; unfold update.
  - rewrite Hnone. destruct (light_ w); reflexivity.
  - rewrite Hsun. destruct (light_ w) as [light |]; [| reflexivity].
    destruct (state c); [| reflexivity].
    destruct (is_on light); [| reflexivity]. simpl.
    destruct Hday as [Hr | Hs].
    + rewrite Hr. reflexivity.
    + rewrite Hs. destruct (sunrise sun); reflexivity.
Qed.

(** An enabled component with nothing requested, on a ready day: [update]
    performs the call for the target. *)
Lemma update_ready_unset (w : World) (light : LightColorValues) (sun : Sun)
    (sunrise_ts sunset_ts : Z) (c : AdaptiveLightningComponent) :
  Frame.update_ready w light sun sunrise_ts sunset_ts c ->
  state c = true -> last_requested_color_temp_ c = 0 ->
  update w c
  = (set_last_requested_color_temp_
       (calc_color_temperature c (now sun) sunrise_ts sunset_ts) c,
     [call_for c light
        (calc_color_temperature c (now sun) sunrise_ts sunset_ts)]).
Proof.
  intros [Hl [Hlit [Hsun [Hr [Hs [_ Hband]]]]]] Hon Hunset.
  apply (update_issues w c light sun sunrise_ts sunset_ts); try assumption.
  rewrite Hunset, Rminus_0_r. exact Hband.
Qed.

End ControllerFacts.

(** ** Properties of the controller *)
Module ControllerSpec.
Import std stdFacts Controller ControllerFacts CurveFacts Scenario Frame.

(** C9: [update] performs no call and leaves the component as it is
    whenever a precondition fails: the light or the sun provider is absent,
    the switch is off, the light is off, or the day's sunrise or sunset is
    not determinable. *)
Theorem update_skips (w : World) (c : AdaptiveLightningComponent) :
  light_ w = None \/ sun_ w = None \/ state c = false \/
  (exists light, light_ w = Some light /\ is_on light = false) \/
  (exists sun, sun_ w = Some sun /\ (sunrise sun = None \/ sunset sun = None)) ->
  update w c = (c, []).
Proof.
  intros [H | [H | [H | [[light [Hl Hoff]] | [sun [Hs Hnone]]]]]].
  - unfold update. rewrite H. reflexivity.
  - unfold update. rewrite H. destruct (light_ w); reflexivity.
  - now apply update_disabled.
  - unfold update. rewrite Hl, Hoff.
    destruct (sun_ w); [| reflexivity]. destruct (state c); reflexivity.
  - unfold update. rewrite Hs.
    destruct (light_ w) as [light |]; [| reflexivity].
    destruct (state c); [| reflexivity].
    destruct (is_on light); [| reflexivity]. simpl.
    destruct Hnone as [Hr | Hr]; rewrite Hr; [reflexivity |].
    destruct (sunrise sun); reflexivity.
Qed.

(** The light is off at 12:00: the tick does nothing. *)
Lemma update_skips_witness :
  update (world (light_at false 400) noon) (component true 0 false)
  = (component true 0 false, []).
Proof.
  apply (update_skips (world (light_at false 400) noon)
           (component true 0 false)).
  right. right. right. left. exists (light_at false 400).
  split; reflexivity.
Defined.

(** C10: when [handle_light_state_change] finds the light off, all it does
    is set [previous_light_state_] to false: the switch and
    [last_requested_color_temp_] keep their values and no call is performed,
    whatever the switch, the restore mode and the reported colour are. *)
Theorem handle_light_state_change_off
    (w : World) (light : LightColorValues) (c : AdaptiveLightningComponent) :
  light_ w = Some light -> is_on light = false ->
  handle_light_state_change w c = (set_previous_light_state_ false c, []) /\
  state (fst (handle_light_state_change w c)) = state c /\
  last_requested_color_temp_ (fst (handle_light_state_change w c))
  = last_requested_color_temp_ c /\
  previous_light_state_ (fst (handle_light_state_change w c)) = false.
Proof.
  intros Hl Hoff.
  assert (H : handle_light_state_change w c
              = (set_previous_light_state_ false c, [])).
  { unfold handle_light_state_change. rewrite Hl, Hoff. reflexivity. }
  rewrite H. repeat split.
Qed.

(** The light goes off, reporting 400, under an enabled controller that
    last requested 326.5. *)
Lemma handle_light_state_change_off_witness :
  handle_light_state_change (world (light_at false 400) noon)
    (component true 326.5 true)
  = (component true 326.5 false, []).
Proof.
  apply (handle_light_state_change_off (world (light_at false 400) noon)
           (light_at false 400) (component true 326.5 true));
    reflexivity.
Defined.

(** C4: with the light on, the switch on and a temperature requested
    before ([last_requested_color_temp_ > 0]), [handle_light_state_change]
    turns the switch off when the reported colour is more than 0.1 from the
    requested one, and leaves the switch as it is when it is at most 0.1
    from it. *)
Theorem handle_light_state_change_override
    (w : World) (light : LightColorValues) (c : AdaptiveLightningComponent) :
  light_ w = Some light -> is_on light = true ->
  state c = true -> last_requested_color_temp_ c > 0 ->
  (fabs (get_color_temperature light - last_requested_color_temp_ c) > 0.1 ->
   state (fst (handle_light_state_change w c)) = false) /\
  (fabs (get_color_temperature light - last_requested_color_temp_ c) <= 0.1 ->
   state (fst (handle_light_state_change w c)) = state c).
Proof.
  intros Hl Hlit Hon Hset. split; intro Hdiff.
  - unfold handle_light_state_change. rewrite Hl, Hlit, Hon.
    apply gt_true_iff in Hset, Hdiff. rewrite Hset, Hdiff. simpl.
    rewrite write_state_disable by assumption. reflexivity.
  - unfold handle_light_state_change. rewrite Hl, Hlit, Hon.
    apply gt_false_iff in Hdiff. rewrite Hdiff.
    rewrite !andb_false_r. simpl. assumption.
Qed.

(** Enabled with 326.5 requested, the light is set to 400 from outside. *)
Lemma handle_light_state_change_override_witness :
  state (fst (handle_light_state_change (world (light_at true 400) noon)
                (component true 326.5 true))) = false.
Proof.
  assert (Hset : last_requested_color_temp_ (component true 326.5 true) > 0)
    by (simpl; lra).
  destruct (handle_light_state_change_override
              (world (light_at true 400) noon) (light_at true 400)
              (component true 326.5 true) eq_refl eq_refl eq_refl Hset)
    as [Hoverride _].
  apply Hoverride. simpl. unfold fabs.
  rewrite Rabs_pos_eq; lra.
Defined.

(** C1: when [update] performs a call with temperature [t], it has stored
    [t] in [last_requested_color_temp_] and the switch is on; a
    [handle_light_state_change] that follows and finds the light on with a
    colour within 0.1 of [t] does not disable: it only records that the
    light is on, and the switch stays on. *)
Theorem update_echo_keeps_enabled
    (w : World) (c c1 : AdaptiveLightningComponent) (call : LightCall) :
  update w c = (c1, [call]) ->
  last_requested_color_temp_ c1 = color_temperature call /\
  state c1 = true /\
  forall (w' : World) (light' : LightColorValues),
    light_ w' = Some light' -> is_on light' = true ->
    fabs (get_color_temperature light' - color_temperature call) <= 0.1 ->
    handle_light_state_change w' c1 = (set_previous_light_state_ true c1, []) /\
    state (fst (handle_light_state_change w' c1)) = true.
Proof.
  intro Hupd. apply update_inv in Hupd.
  destruct Hupd as [[_ Hnil] | [call' [Hcalls [Hon Hc1]]]]; [discriminate |].
  injection Hcalls as <-. subst c1. simpl.
  split; [reflexivity |]. split; [assumption |].
  intros w' light' Hl Hlit Hecho.
  assert (H : handle_light_state_change w'
                (set_last_requested_color_temp_ (color_temperature call) c)
              = (set_previous_light_state_ true
                   (set_last_requested_color_temp_ (color_temperature call) c),
                 [])).
  { unfold handle_light_state_change. rewrite Hl, Hlit. simpl.
    apply gt_false_iff in Hecho. rewrite Hecho, Hon.
    rewrite !andb_false_r. simpl. reflexivity. }
  rewrite H. split; [reflexivity | simpl; assumption].
Qed.

(** The tick at 12:00 requests 153.0 and the light echoes it. *)
Lemma update_echo_keeps_enabled_witness :
  update (world (light_at true 400) noon) (component true 0 true)
  = (component true 153 true, [call_for (component true 0 true)
                                 (light_at true 400) 153]) /\
  state (fst (handle_light_state_change (world (light_at true 153) noon)
                (component true 153 true))) = true.
Proof.
  assert (Hupd : update (world (light_at true 400) noon) (component true 0 true)
                 = (component true 153 true,
                    [call_for (component true 0 true) (light_at true 400) 153])).
  { rewrite (update_issues (world (light_at true 400) noon)
               (component true 0 true) (light_at true 400) noon 21600 64800)
      by (try reflexivity; cbv zeta; unfold calc_color_temperature; simpl;
          rewrite calc_noon_153; unfold fabs; rewrite Rabs_pos_eq; lra).
    unfold calc_color_temperature. simpl. rewrite calc_noon_153.
    reflexivity. }
  split; [exact Hupd |].
  destruct (update_echo_keeps_enabled _ _ _ _ Hupd) as [_ [_ Hecho]].
  apply (Hecho (world (light_at true 153) noon) (light_at true 153));
    try reflexivity.
  simpl. unfold fabs. rewrite Rabs_pos_eq; lra.
Defined.

(** The light is turned on at 12:00 of the 06:00 - 18:00 day under a
    switched-off controller: the notification itself commands 153.0. *)
Lemma turn_on_noon_edge :
  handle_light_state_change (world (light_at true 400) noon)
    (component false 0 false)
  = (component true 0 true,
     [call_for (component false 0 false) (light_at true 400) 153]).
Proof.
  rewrite (handle_light_state_change_enable _ (light_at true 400))
    by reflexivity.
  rewrite (update_ready_unset (world (light_at true 400) noon)
             (light_at true 400) noon 21600 64800); try reflexivity.
  - unfold calc_color_temperature. simpl. rewrite calc_noon_153. reflexivity.
  - unfold Frame.update_ready. repeat split; try reflexivity; try lia.
    unfold calc_color_temperature. simpl. rewrite calc_noon_153.
    unfold fabs. rewrite Rabs_pos_eq; lra.
Qed.

(** The transition of that turn-on ends: 153.0 is commanded again. *)
Lemma turn_on_noon_reached :
  handle_target_state_reached (world (light_at true 153) noon)
    (component true 0 true)
  = (component true 153 true,
     [call_for (component false 0 false) (light_at true 153) 153]).
Proof.
  unfold handle_target_state_reached. simpl.
  rewrite (update_ready_unset (world (light_at true 153) noon)
             (light_at true 153) noon 21600 64800); try reflexivity.
  - unfold calc_color_temperature. simpl. rewrite calc_noon_153. reflexivity.
  - unfold Frame.update_ready. repeat split; try reflexivity; try lia.
    unfold calc_color_temperature. simpl. rewrite calc_noon_153.
    unfold fabs. rewrite Rabs_pos_eq; lra.
Qed.

(** C8 as stated fails.  At 12:00 of the 06:00 - 18:00 day the light is
    found on after having been off: the notification turns the switch on and
    commands 153.0 at once, and the target-reached notification after it
    commands 153.0 again, two calls for the turn-on sequence.  On a day
    without sunrise the same sequence turns the switch on and performs no
    call at all. *)
Lemma turn_on_sequence_counterexample :
  restore_mode (component false 0 false) = SWITCH_ALWAYS_ON /\
  state (component false 0 false) = false /\
  previous_light_state_ (component false 0 false) = false /\
  is_on (light_at true 400) = true /\
  (* an ordinary day *)
  length
    (snd (handle_light_state_change (world (light_at true 400) noon)
            (component false 0 false))
     ++ snd (handle_target_state_reached (world (light_at true 153) noon)
               (fst (handle_light_state_change (world (light_at true 400) noon)
                       (component false 0 false)))))
  = 2%nat /\
  (* a day without sunrise *)
  handle_light_state_change (world (light_at true 400) polar_night)
    (component false 0 false)
  = (component true 0 true, []) /\
  ~ (exists call,
       snd (handle_target_state_reached (world (light_at true 400) polar_night)
              (fst (handle_light_state_change
                      (world (light_at true 400) polar_night)
                      (component false 0 false))))
       = [call]).
Proof.
  assert (H1 : handle_light_state_change (world (light_at true 400) polar_night)
                 (component false 0 false)
               = (component true 0 true, [])).
  { rewrite (handle_light_state_change_enable _ (light_at true 400))
      by reflexivity.
    reflexivity. }
  assert (H2 : handle_target_state_reached
                 (world (light_at true 400) polar_night) (component true 0 true)
               = (component true 0 true, [])) by reflexivity.
  repeat split; try assumption.
  - rewrite turn_on_noon_edge. simpl fst. rewrite turn_on_noon_reached.
    reflexivity.
  - rewrite H1. simpl fst. rewrite H2. intros [call Hcall]. discriminate.
Qed.

(** C8, as amended: with restore mode always-on and the switch off, a
    [handle_light_state_change] that finds the light on after having been
    off turns the switch on, records the light as on and leaves
    [last_requested_color_temp_] unset.  On a ready day (sun provider
    present, sunrise before sunset, target at least 0.1 away from 0) that
    notification performs one call at once, carrying the target of the
    curve, and a [handle_target_state_reached] that follows on a ready day
    with the light on performs exactly one more, carrying the target and
    storing it: two calls for the turn-on sequence.  Where the sun provider
    is absent or cannot tell sunrise or sunset, the step performs no
    call. *)
Theorem turn_on_sequence
    (w w' : World) (light light' : LightColorValues) (sun sun' : Sun)
    (sunrise_ts sunset_ts sunrise_ts' sunset_ts' : Z)
    (c : AdaptiveLightningComponent) :
  restore_mode c = SWITCH_ALWAYS_ON -> state c = false ->
  previous_light_state_ c = false ->
  light_ w = Some light -> is_on light = true ->
  let c1 := fst (handle_light_state_change w c) in
  let edge_calls := snd (handle_light_state_change w c) in
  let reached_calls := snd (handle_target_state_reached w' c1) in
  let mireds := calc_color_temperature c (now sun) sunrise_ts sunset_ts in
  let mireds' := calc_color_temperature c (now sun') sunrise_ts' sunset_ts' in
  state c1 = true /\ previous_light_state_ c1 = true /\
  last_requested_color_temp_ c1 = 0 /\
  (update_ready w light sun sunrise_ts sunset_ts c ->
   edge_calls = [call_for c light mireds]) /\
  (update_ready w' light' sun' sunrise_ts' sunset_ts' c ->
   handle_target_state_reached w' c1
   = (set_last_requested_color_temp_ mireds' c1, [call_for c light' mireds'])) /\
  (update_ready w light sun sunrise_ts sunset_ts c ->
   update_ready w' light' sun' sunrise_ts' sunset_ts' c ->
   length (edge_calls ++ reached_calls) = 2%nat) /\
  (no_day w -> edge_calls = []) /\
  (no_day w' -> reached_calls = []).
Proof.
  intros Hmode Hoff Hprev Hl Hlit. cbv zeta.
  rewrite (handle_light_state_change_enable w light c) by assumption.
  simpl fst. simpl snd.
  assert (Hedge : update_ready w light sun sunrise_ts sunset_ts c ->
            snd (update w (publish_state true (force_next_update c)))
            = [call_for c light
                 (calc_color_temperature c (now sun) sunrise_ts sunset_ts)]).
  { intro Hready.
    rewrite (update_ready_unset w light sun sunrise_ts sunset_ts);
      try reflexivity. exact Hready. }
  assert (Hreached : update_ready w' light' sun' sunrise_ts' sunset_ts' c ->
            handle_target_state_reached w'
              (set_previous_light_state_ true
                 (force_next_update
                    (publish_state true (force_next_update c))))
            = (set_last_requested_color_temp_
                 (calc_color_temperature c (now sun') sunrise_ts' sunset_ts')
                 (set_previous_light_state_ true
                    (force_next_update
                       (publish_state true (force_next_update c)))),
               [call_for c light'
                  (calc_color_temperature c (now sun') sunrise_ts'
                     sunset_ts')])).
  { intro Hready. unfold handle_target_state_reached.
    destruct Hready as [Hl' Hrest]. rewrite Hl'. simpl.
    rewrite (update_ready_unset w' light' sun' sunrise_ts' sunset_ts');
      try reflexivity. split; assumption. }
  repeat split; try assumption.
  - intros Hready Hready'.
    rewrite (Hedge Hready), (Hreached Hready'). reflexivity.
  - intro Hno. rewrite update_no_day by assumption. reflexivity.
  - intro Hno. unfold handle_target_state_reached.
    destruct (light_ w'); [| reflexivity]. simpl.
    rewrite update_no_day by assumption. reflexivity.
Qed.

(** The light is turned on at 12:00 of the 06:00 - 18:00 day; the
    transition ends with the light reporting 153. *)
Lemma turn_on_sequence_witness :
  state (fst (handle_light_state_change (world (light_at true 400) noon)
                (component false 0 false))) = true /\
  length
    (snd (handle_light_state_change (world (light_at true 400) noon)
            (component false 0 false))
     ++ snd (handle_target_state_reached (world (light_at true 153) noon)
               (fst (handle_light_state_change (world (light_at true 400) noon)
                       (component false 0 false)))))
  = 2%nat.
Proof.
  assert (Hready : forall on_colour,
            update_ready (world (light_at true on_colour) noon)
              (light_at true on_colour) noon 21600 64800
              (component false 0 false)).
  { intro on_colour. unfold update_ready.
    repeat split; try reflexivity; try lia.
    unfold calc_color_temperature. simpl. rewrite calc_noon_153.
    unfold fabs. rewrite Rabs_pos_eq; lra. }
  destruct (turn_on_sequence
              (world (light_at true 400) noon) (world (light_at true 153) noon)
              (light_at true 400) (light_at true 153) noon noon
              21600 64800 21600 64800 (component false 0 false)
              eq_refl eq_refl eq_refl eq_refl eq_refl)
    as [Hon [_ [_ [_ [_ [Htwo _]]]]]].
  split; [exact Hon | exact (Htwo (Hready 400) (Hready 153))].
Defined.

End ControllerSpec.

(** ** Further properties of the curve *)
Module CurveMore.
Import std stdFacts Curve CurveFacts.

Lemma roundf_integer (x : R) : exists z : Z, roundf x = IZR z.
Proof.
  unfold roundf. destruct (Rle_dec 0 x) as [_ | _].
  - eexists. reflexivity.
  - exists (- floor (- x + / 2))%Z. now rewrite opp_IZR.
Qed.

(** The fold of a position of [[0, 1]] lies in [[0, 1]]. *)
Lemma fold_unit (x : R) : 0 <= x <= 1 -> 0 <= fabs (1 - x * 2) <= 1.
Proof.
  intros [Hlo Hhi]. unfold fabs. split; [apply Rabs_pos |].
  apply Rabs_le. split; lra.
Qed.

(** At every instant the result is within 0.05 of the configured range. *)
Lemma calc_range_everywhere
    (now sunrise sunset : Z) (min_mireds max_mireds speed : R) :
  min_mireds <= max_mireds ->
  min_mireds - 0.05
  <= calc_color_temperature now sunrise sunset min_mireds max_mireds speed
  <= max_mireds + 0.05.
Proof.
  intro Hrange. unfold calc_color_temperature.
  destruct ((now <? sunrise) || (now >? sunset))%Z; [split; lra |].
  cbv zeta.
  set (v := smooth_transition _ min_mireds max_mireds speed).
  pose proof (smooth_transition_bounds
                (IZR (now - sunrise) / IZR (sunset - sunrise))
                min_mireds max_mireds speed Hrange) as Hv.
  fold v in Hv.
  pose proof (round_one_decimal_close v) as Hc.
  apply Rabs_bound in Hc. split; lra.
Qed.

(** X13: inside a window [sunrise < sunset], end points included, the
    result is a multiple of 0.1, and it is within 0.05 of the unrounded curve
    [smooth_transition] at the instant's position. *)
Theorem calc_color_temperature_grid
    (now sunrise sunset : Z) (min_mireds max_mireds speed : R) :
  (sunrise < sunset)%Z -> (sunrise <= now <= sunset)%Z ->
  (exists z : Z,
     calc_color_temperature now sunrise sunset min_mireds max_mireds speed
     = IZR z / 10) /\
  Rabs (calc_color_temperature now sunrise sunset min_mireds max_mireds speed
        - smooth_transition (IZR (now - sunrise) / IZR (sunset - sunrise))
            min_mireds max_mireds speed)
  <= 0.05.
Proof.
  intros Hlt Hwin. rewrite calc_in_window by assumption. split.
  - destruct (roundf_integer
                (smooth_transition (IZR (now - sunrise) / IZR (sunset - sunrise))
                   min_mireds max_mireds speed * 10)) as [z Hz].
    exists z. rewrite Hz. reflexivity.
  - apply round_one_decimal_close.
Qed.

(** 14:00 of the 06:00 - 18:00 day. *)
Lemma calc_color_temperature_grid_witness :
  exists z : Z,
    calc_color_temperature 50400 21600 64800 153 500 1 = IZR z / 10.
Proof.
  assert (Hlt : (21600 < 64800)%Z) by lia.
  assert (Hwin : (21600 <= 50400 <= 64800)%Z) by lia.
  destruct (calc_color_temperature_grid 50400 21600 64800 153 500 1 Hlt Hwin)
    as [Hgrid _].
  exact Hgrid.
Defined.

(** X14: on positions of [[0, 1]], with [y_min <= y_max] and [speed > 0],
    [smooth_transition] stays between its two calibration points: at least
    0.00001 and at most 0.999 of the range above [y_min]. *)
Theorem smooth_transition_calibrated (x y_min y_max speed : R) :
  0 <= x <= 1 -> y_min <= y_max -> 0 < speed ->
  y_min + (y_max - y_min) * 0.00001
  <= smooth_transition x y_min y_max speed
  <= y_min + (y_max - y_min) * 0.999.
Proof.
  intros Hx Hrange Hspeed. unfold smooth_transition. cbv zeta.
  pose proof a_pos as Ha.
  destruct (fold_unit x Hx) as [Hf0 Hf1].
  set (x_adj := pow (fabs (1 - x * 2)) speed).
  assert (Hadj : 0 <= x_adj <= 1).
  { split; [apply pow_nonneg |].
    rewrite <- (pow_1_l speed). apply pow_le_l; [assumption |]. lra. }
  assert (Hlo : tanh (a * (0 - b)) <= tanh (a * (x_adj - b))).
  { apply tanh_le. apply Rmult_le_compat_l; lra. }
  assert (Hhi : tanh (a * (x_adj - b)) <= tanh (a * (1 - b))).
  { apply tanh_le. apply Rmult_le_compat_l; lra. }
  rewrite sigmoid_at_0 in Hlo. rewrite sigmoid_at_1 in Hhi.
  unfold y1 in Hlo. unfold y2 in Hhi. split; nra.
Qed.

(** A quarter of the way through the day, bounds 153 - 500. *)
Lemma smooth_transition_calibrated_witness :
  smooth_transition 0.25 153 500 1 <= 153 + (500 - 153) * 0.999.
Proof.
  assert (Hx : 0 <= 0.25 <= 1) by lra.
  assert (Hrange : 153 <= 500) by lra.
  assert (Hspeed : 0 < 1) by lra.
  destruct (smooth_transition_calibrated 0.25 153 500 1 Hx Hrange Hspeed)
    as [_ Hhi].
  exact Hhi.
Defined.

End CurveMore.

(** ** Further properties of the controller *)
Module ControllerMore.
Import std stdFacts Controller ControllerFacts CurveFacts Scenario Frame.

(** What [update] found when it performed a call. *)
Lemma update_inv_full (w : World) (c c1 : AdaptiveLightningComponent)
    (calls : list LightCall) :
  update w c = (c1, calls) ->
  (c1 = c /\ calls = []) \/
  (exists light sun sunrise_ts sunset_ts,
     light_ w = Some light /\ sun_ w = Some sun /\
     state c = true /\ is_on light = true /\
     sunrise sun = Some sunrise_ts /\ sunset sun = Some sunset_ts /\
     0.1 <= fabs (calc_color_temperature c (now sun) sunrise_ts sunset_ts
                  - last_requested_color_temp_ c) /\
     c1 = set_last_requested_color_temp_
            (calc_color_temperature c (now sun) sunrise_ts sunset_ts) c /\
     calls = [call_for c light
                (calc_color_temperature c (now sun) sunrise_ts sunset_ts)]).
Proof.
  unfold update. intro H.
  destruct (light_ w) as [light |]; [| left; inversion H; auto].
  destruct (sun_ w) as [sun |]; [| left; inversion H; auto].
  destruct (state c) eqn:Hon; simpl in H; [| left; inversion H; auto].
  destruct (is_on light) eqn:Hlit; simpl in H; [| left; inversion H; auto].
  destruct (sunrise sun) as [sunrise_ts |] eqn:Hr; [| left; inversion H; auto].
  destruct (sunset sun) as [sunset_ts |] eqn:Hs; [| left; inversion H; auto].
  destruct (lt _ 0.1) eqn:Hband; [left; inversion H; auto |].
  right. inversion H. apply lt_false_iff in Hband.
  exists light, sun, sunrise_ts, sunset_ts.
  repeat split; try reflexivity; assumption.
Qed.

(** Inside the dead-band [update] does nothing. *)
Lemma update_dead_band (w : World) (c : AdaptiveLightningComponent) :
  (forall sun sunrise_ts sunset_ts,
     sun_ w = Some sun ->
     sunrise sun = Some sunrise_ts -> sunset sun = Some sunset_ts ->
     fabs (calc_color_temperature c (now sun) sunrise_ts sunset_ts
           - last_requested_color_temp_ c) < 0.1) ->
  update w c = (c, []).
Proof.
  intro Hband. unfold update.
  destruct (light_ w) as [light |]; [| reflexivity].
  destruct (sun_ w) as [sun |]; [| reflexivity].
  destruct (state c); [| reflexivity].
  destruct (is_on light); [| reflexivity]. simpl.
  destruct (sunrise sun) as [sunrise_ts |] eqn:Hr; [| reflexivity].
  destruct (sunset sun) as [sunset_ts |] eqn:Hs; [| reflexivity].
  specialize (Hband sun sunrise_ts sunset_ts eq_refl Hr Hs).
  apply lt_true_iff in Hband. rewrite Hband. reflexivity.
Qed.

(** With the light on, [handle_light_state_change] only records the light
    as on when neither of its two conditions holds. *)
Lemma handle_light_state_change_quiet
    (w : World) (light : LightColorValues) (c : AdaptiveLightningComponent) :
  light_ w = Some light -> is_on light = true ->
  (state c = false \/ last_requested_color_temp_ c <= 0 \/
   fabs (get_color_temperature light - last_requested_color_temp_ c) <= 0.1) ->
  (state c = true \/ previous_light_state_ c = true \/
   is_always_on (restore_mode c) = false) ->
  handle_light_state_change w c = (set_previous_light_state_ true c, []).
Proof.
  intros Hl Hlit H1 H2. unfold handle_light_state_change.
  rewrite Hl, Hlit.
  assert (E1 : state c && gt (last_requested_color_temp_ c) 0
               && gt (fabs (get_color_temperature light
                            - last_requested_color_temp_ c)) 0.1 = false).
  { destruct H1 as [H | [H | H]].
    - rewrite H. reflexivity.
    - apply gt_false_iff in H. rewrite H. now rewrite andb_false_r.
    - apply gt_false_iff in H. rewrite H. now rewrite andb_false_r. }
  assert (E2 : negb (previous_light_state_ c) && negb (state c)
               && is_always_on (restore_mode c) = false).
  { destruct H2 as [H | [H | H]]; rewrite H; simpl.
    - now rewrite andb_false_r.
    - reflexivity.
    - now rewrite andb_false_r. }
  rewrite E1, E2. reflexivity.
Qed.

Lemma update_configuration (w : World) (c : AdaptiveLightningComponent) :
  same_configuration c (fst (update w c)).
Proof.
  destruct (update w c) as [c1 calls] eqn:H.
  apply update_inv in H. destruct H as [[-> _] | [call [_ [_ ->]]]];
    repeat split.
Qed.

Lemma write_state_configuration (w : World) (v : bool)
    (c : AdaptiveLightningComponent) :
  same_configuration c (fst (write_state w v c)) /\
  previous_light_state_ (fst (write_state w v c)) = previous_light_state_ c.
Proof.
  unfold write_state.
  destruct (negb (eqb (state c) v)); [| repeat split].
  cbv zeta.
  pose proof (update_configuration w (publish_state v (force_next_update c)))
    as [H1 [H2 [H3 [H4 H5]]]].
  pose proof (update_frame w (publish_state v (force_next_update c)))
    as [_ Hp].
  destruct (update w (publish_state v (force_next_update c))) as [c3 calls].
  simpl in *. repeat split; assumption.
Qed.

(** [calc_color_temperature] reads the configuration only. *)
Lemma calc_same_configuration (c c' : AdaptiveLightningComponent)
    (now_ts sunrise_ts sunset_ts : Z) :
  same_configuration c c' ->
  calc_color_temperature c' now_ts sunrise_ts sunset_ts
  = calc_color_temperature c now_ts sunrise_ts sunset_ts.
Proof.
  intros [Hmin [Hmax [Hspeed _]]]. unfold calc_color_temperature.
  rewrite Hmin, Hmax, Hspeed. reflexivity.
Qed.

(** A component that requested the present target is settled. *)
Lemma update_settled (w : World) (c : AdaptiveLightningComponent)
    (sun : Sun) (sunrise_ts sunset_ts : Z) :
  sun_ w = Some sun ->
  sunrise sun = Some sunrise_ts -> sunset sun = Some sunset_ts ->
  last_requested_color_temp_ c
  = calc_color_temperature c (now sun) sunrise_ts sunset_ts ->
  update w c = (c, []).
Proof.
  intros Hsun Hr Hs Hlast. apply update_dead_band.
  intros sun' sunrise' sunset' Hsun' Hr' Hs'.
  rewrite Hsun in Hsun'. injection Hsun' as <-.
  rewrite Hr in Hr'. injection Hr' as <-.
  rewrite Hs in Hs'. injection Hs' as <-.
  rewrite Hlast. unfold fabs. rewrite Rminus_diag, Rabs_R0. lra.
Qed.

(** The tick at 12:00 of the 06:00 - 18:00 day, nothing requested before. *)
Lemma update_noon :
  update (world (light_at true 400) noon) (component true 0 true)
  = (component true 153 true,
     [call_for (component true 0 true) (light_at true 400) 153]).
Proof.
  rewrite (update_issues (world (light_at true 400) noon)
             (component true 0 true) (light_at true 400) noon 21600 64800)
    by (try reflexivity; cbv zeta; unfold calc_color_temperature; simpl;
        rewrite calc_noon_153; unfold fabs; rewrite Rabs_pos_eq; lra).
  unfold calc_color_temperature. simpl. rewrite calc_noon_153. reflexivity.
Qed.

Lemma update_writes_calls (w : World) (c : AdaptiveLightningComponent) :
  (length (snd (update w c)) <= 1)%nat.
Proof.
  destruct (update w c) as [c1 calls] eqn:H. apply update_inv in H.
  destruct H as [[_ ->] | [call [-> _]]]; simpl; lia.
Qed.

(** X1: [update] is idempotent on a day whose sunrise is before its
    sunset: run again at once, with the light and the sun provider answering
    as before, it performs no call and changes nothing, whatever the first
    run did. *)
Theorem update_idempotent (w : World) (c : AdaptiveLightningComponent) :
  (forall sun sunrise_ts sunset_ts,
     sun_ w = Some sun ->
     sunrise sun = Some sunrise_ts -> sunset sun = Some sunset_ts ->
     (sunrise_ts < sunset_ts)%Z) ->
  update w (fst (update w c)) = (fst (update w c), []).
Proof.
  intros _.
  destruct (update w c) as [c1 calls] eqn:H. simpl fst.
  destruct (update_inv_full w c c1 calls H)
    as [[-> ->] | [light [sun [sunrise_ts [sunset_ts
         [_ [Hsun [_ [_ [Hr [Hs [_ [-> _]]]]]]]]]]]]].
  - exact H.
  - apply (update_settled w _ sun sunrise_ts sunset_ts); try assumption.
    reflexivity.
Qed.

(** Two ticks at 12:00 of the 06:00 - 18:00 day: the second finds 153.0
    requested already. *)
Lemma update_idempotent_witness :
  update (world (light_at true 400) noon)
    (fst (update (world (light_at true 400) noon) (component true 0 true)))
  = (fst (update (world (light_at true 400) noon) (component true 0 true)),
     []).
Proof.
  apply (update_idempotent (world (light_at true 400) noon)
           (component true 0 true)).
  intros sun sunrise_ts sunset_ts Hsun Hr Hs.
  injection Hsun as <-. injection Hr as <-. injection Hs as <-. lia.
Defined.

(** X2: [update] writes [last_requested_color_temp_] and nothing else: the
    configuration, the switch and [previous_light_state_] stay; it performs
    at most one call; without a call the component is unchanged, and with
    one the switch is on and the stored temperature is the one of the
    call. *)
Theorem update_writes_last_requested_only
    (w : World) (c : AdaptiveLightningComponent) :
  same_configuration c (fst (update w c)) /\
  state (fst (update w c)) = state c /\
  previous_light_state_ (fst (update w c)) = previous_light_state_ c /\
  (length (snd (update w c)) <= 1)%nat /\
  (snd (update w c) = [] -> fst (update w c) = c) /\
  (forall call, In call (snd (update w c)) ->
     state c = true /\
     last_requested_color_temp_ (fst (update w c)) = color_temperature call).
Proof.
  pose proof (update_configuration w c) as Hcfg.
  pose proof (update_frame w c) as [Hstate Hprev].
  destruct (update w c) as [c1 calls] eqn:H. simpl fst in *. simpl snd.
  apply update_inv in H.
  destruct H as [[-> ->] | [call [-> [Hon ->]]]].
  - repeat split; try assumption; try reflexivity.
    + simpl. lia.
    + contradiction.
    + contradiction.
  - repeat split; try assumption; try reflexivity.
    + discriminate.
    + destruct H as [<- | []]. reflexivity.
Qed.

(** X3: a call that [update] performs carries a colour temperature within
    0.05 of the configured range and the brightness the light reports,
    given [min_mireds_ <= max_mireds_], [speed_ > 0] and a sunrise before
    the sunset. *)
Theorem update_call_in_range
    (w : World) (c : AdaptiveLightningComponent) (call : LightCall) :
  min_mireds_ c <= max_mireds_ c -> 0 < speed_ c ->
  (forall sun sunrise_ts sunset_ts,
     sun_ w = Some sun ->
     sunrise sun = Some sunrise_ts -> sunset sun = Some sunset_ts ->
     (sunrise_ts < sunset_ts)%Z) ->
  In call (snd (update w c)) ->
  min_mireds_ c - 0.05 <= color_temperature call <= max_mireds_ c + 0.05 /\
  exists light, light_ w = Some light /\ brightness call = get_brightness light.
Proof.
  intros Hrange Hspeed Hday Hin.
  destruct (update w c) as [c1 calls] eqn:H. simpl snd in Hin.
  destruct (update_inv_full w c c1 calls H)
    as [[_ ->] | [light [sun [sunrise_ts [sunset_ts
         [Hl [_ [_ [_ [_ [_ [_ [_ ->]]]]]]]]]]]]].
  - contradiction.
  - destruct Hin as [<- | []]. split.
    + simpl. unfold calc_color_temperature.
      now apply CurveMore.calc_range_everywhere.
    + exists light. split; [assumption | reflexivity].
Qed.

(** The tick at 12:00 requests 153.0, inside 153 - 500. *)
Lemma update_call_in_range_witness :
  In (call_for (component true 0 true) (light_at true 400) 153)
    (snd (update (world (light_at true 400) noon) (component true 0 true))) /\
  min_mireds_ (component true 0 true) - 0.05
  <= color_temperature (call_for (component true 0 true) (light_at true 400) 153)
  <= max_mireds_ (component true 0 true) + 0.05.
Proof.
  assert (Hrange : min_mireds_ (component true 0 true)
                   <= max_mireds_ (component true 0 true)) by (simpl; lra).
  assert (Hspeed : 0 < speed_ (component true 0 true)) by (simpl; lra).
  assert (Hday : forall sun sunrise_ts sunset_ts,
             sun_ (world (light_at true 400) noon) = Some sun ->
             sunrise sun = Some sunrise_ts -> sunset sun = Some sunset_ts ->
             (sunrise_ts < sunset_ts)%Z).
  { intros sun sunrise_ts sunset_ts Hsun Hr Hs.
    injection Hsun as <-. injection Hr as <-. injection Hs as <-. lia. }
  assert (Hin : In (call_for (component true 0 true) (light_at true 400) 153)
                  (snd (update (world (light_at true 400) noon)
                          (component true 0 true)))).
  { rewrite update_noon. left. reflexivity. }
  destruct (update_call_in_range _ _ _ Hrange Hspeed Hday Hin) as [Hbounds _].
  split; [exact Hin | exact Hbounds].
Defined.

(** X4: [write_state] leaves the switch at the value asked for.  It
    performs at most one call, and none when asked to switch off; when the
    switch changes, [last_requested_color_temp_] ends unset (0); when the
    switch already has the value, nothing happens. *)
Theorem write_state_result
    (w : World) (v : bool) (c : AdaptiveLightningComponent) :
  state (fst (write_state w v c)) = v /\
  (length (snd (write_state w v c)) <= 1)%nat /\
  (v = false -> snd (write_state w v c) = []) /\
  (state c <> v ->
   last_requested_color_temp_ (fst (write_state w v c)) = 0) /\
  (state c = v -> write_state w v c = (c, [])).
Proof.
  destruct (bool_dec (state c) v) as [Heq | Hne].
  - subst v. rewrite write_state_same. simpl.
    repeat split; try reflexivity; try lia; intro K; congruence.
  - destruct v.
    + assert (Hoff : state c = false) by (destruct (state c); congruence).
      rewrite (write_state_enable w c Hoff). simpl fst. simpl snd.
      pose proof (update_frame w (publish_state true (force_next_update c)))
        as [Hstate _].
      pose proof (update_writes_calls w
                    (publish_state true (force_next_update c))) as Hlen.
      repeat split; try assumption; try reflexivity; try discriminate.
      congruence.
    + assert (Hon : state c = true) by (destruct (state c); congruence).
      rewrite (write_state_disable w c Hon). simpl.
      repeat split; try reflexivity; try lia. congruence.
Qed.

(** X5: with a light, [handle_light_state_change] ends with
    [previous_light_state_] equal to what the light reports and with the
    configuration it began with; without a light it does nothing. *)
Theorem handle_light_state_change_frame
    (w : World) (c : AdaptiveLightningComponent) :
  match light_ w with
  | Some light =>
    previous_light_state_ (fst (handle_light_state_change w c)) = is_on light /\
    same_configuration c (fst (handle_light_state_change w c))
  | None => handle_light_state_change w c = (c, [])
  end.
Proof.
  unfold handle_light_state_change.
  destruct (light_ w) as [light |]; [| reflexivity].
  cbv zeta.
  pose proof (write_state_configuration w false c) as [Hf _].
  pose proof (write_state_configuration w true c) as [Ht _].
  destruct (is_on light).
  - destruct (state c && gt (last_requested_color_temp_ c) 0
              && gt (fabs (get_color_temperature light
                           - last_requested_color_temp_ c)) 0.1).
    + destruct (write_state w false c) as [c' calls]. simpl in *.
      split; [reflexivity | exact Hf].
    + destruct (negb (previous_light_state_ c) && negb (state c)
                && is_always_on (restore_mode c)).
      * destruct (write_state w true c) as [c' calls]. simpl in *.
        split; [reflexivity | exact Ht].
      * simpl. repeat split.
  - simpl. repeat split.
Qed.

(** X6: a switched-off controller stays off and silent on a light
    notification unless the light is found on after having been off and the
    restore mode is always-on: otherwise [handle_light_state_change] only
    records what the light reports. *)
Theorem handle_light_state_change_stays_disabled
    (w : World) (light : LightColorValues) (c : AdaptiveLightningComponent) :
  light_ w = Some light -> state c = false ->
  (is_on light = false \/ previous_light_state_ c = true \/
   restore_mode c <> SWITCH_ALWAYS_ON) ->
  handle_light_state_change w c
  = (set_previous_light_state_ (is_on light) c, []).
Proof.
  intros Hl Hoff Hno.
  destruct (is_on light) eqn:Hlit.
  - apply (handle_light_state_change_quiet w light c Hl Hlit).
    + left. assumption.
    + destruct Hno as [H | [H | H]]; [discriminate | auto |].
      right. right. destruct (restore_mode c); try reflexivity. congruence.
  - unfold handle_light_state_change. rewrite Hl, Hlit. reflexivity.
Qed.

(** A light that was already on reports again under a switched-off
    controller. *)
Lemma handle_light_state_change_stays_disabled_witness :
  handle_light_state_change (world (light_at true 400) noon)
    (set_previous_light_state_ true (component false 0 false))
  = (set_previous_light_state_ true (component false 0 false), []).
Proof.
  apply (handle_light_state_change_stays_disabled
           (world (light_at true 400) noon) (light_at true 400)
           (set_previous_light_state_ true (component false 0 false))
           eq_refl eq_refl).
  right. left. reflexivity.
Defined.

(** X7: a self-disable lasts while the light stays on.  After
    [handle_light_state_change] has switched the controller off because the
    colour was changed from outside (performing no call), a further light
    notification with the light on, a target-reached notification and a tick
    all leave the component as it is and perform no call, whatever the light
    reports. *)
Theorem self_disable_lasts
    (w w' : World) (light light' : LightColorValues)
    (c : AdaptiveLightningComponent) :
  light_ w = Some light -> is_on light = true ->
  state c = true -> last_requested_color_temp_ c > 0 ->
  fabs (get_color_temperature light - last_requested_color_temp_ c) > 0.1 ->
  light_ w' = Some light' -> is_on light' = true ->
  let c1 := fst (handle_light_state_change w c) in
  snd (handle_light_state_change w c) = [] /\
  state c1 = false /\
  handle_light_state_change w' c1 = (c1, []) /\
  handle_target_state_reached w' c1 = (c1, []) /\
  update w' c1 = (c1, []).
Proof.
  intros Hl Hlit Hon Hset Hdiff Hl' Hlit'. cbv zeta.
  assert (H : handle_light_state_change w c
              = (set_previous_light_state_ true
                   (force_next_update
                      (publish_state false (force_next_update c))), [])).
  { unfold handle_light_state_change. rewrite Hl, Hlit, Hon.
    apply gt_true_iff in Hset, Hdiff. rewrite Hset, Hdiff. simpl.
    rewrite write_state_disable by assumption. reflexivity. }
  rewrite H. simpl fst. simpl snd.
  split; [reflexivity |]. split; [reflexivity |]. split; [| split].
  - rewrite (handle_light_state_change_quiet w' light' _ Hl' Hlit').
    + reflexivity.
    + left. reflexivity.
    + right. left. reflexivity.
  - unfold handle_target_state_reached. rewrite Hl'. reflexivity.
  - apply update_disabled. reflexivity.
Qed.

(** Enabled with 326.5 requested, the light is set to 400 from outside and
    then to 250. *)
Lemma self_disable_lasts_witness :
  handle_light_state_change (world (light_at true 250) noon)
    (fst (handle_light_state_change (world (light_at true 400) noon)
            (component true 326.5 true)))
  = (fst (handle_light_state_change (world (light_at true 400) noon)
            (component true 326.5 true)), []).
Proof.
  assert (Hset : last_requested_color_temp_ (component true 326.5 true) > 0)
    by (simpl; lra).
  assert (Hdiff : fabs (get_color_temperature (light_at true 400)
                        - last_requested_color_temp_ (component true 326.5 true))
                  > 0.1).
  { simpl. unfold fabs. rewrite Rabs_pos_eq; lra. }
  destruct (self_disable_lasts
              (world (light_at true 400) noon) (world (light_at true 250) noon)
              (light_at true 400) (light_at true 250)
              (component true 326.5 true)
              eq_refl eq_refl eq_refl Hset Hdiff eq_refl eq_refl)
    as [_ [_ [Hagain _]]].
  exact Hagain.
Defined.

(** X8: once [handle_light_state_change] has found the light off, a
    [handle_target_state_reached] that follows (the end of the turn-off
    transition) does nothing, whatever the switch and the collaborators
    are. *)
Theorem target_reached_after_off
    (w w' : World) (light : LightColorValues)
    (c : AdaptiveLightningComponent) :
  light_ w = Some light -> is_on light = false ->
  handle_target_state_reached w' (fst (handle_light_state_change w c))
  = (fst (handle_light_state_change w c), []).
Proof.
  intros Hl Hoff.
  assert (H : handle_light_state_change w c
              = (set_previous_light_state_ false c, [])).
  { unfold handle_light_state_change. rewrite Hl, Hoff. reflexivity. }
  rewrite H. simpl fst. unfold handle_target_state_reached.
  destruct (light_ w'); reflexivity.
Qed.

(** The light of an enabled controller is turned off at 12:00. *)
Lemma target_reached_after_off_witness :
  handle_target_state_reached (world (light_at false 153) noon)
    (fst (handle_light_state_change (world (light_at false 153) noon)
            (component true 153 true)))
  = (component true 153 false, []).
Proof.
  apply (target_reached_after_off
           (world (light_at false 153) noon) (world (light_at false 153) noon)
           (light_at false 153) (component true 153 true));
    reflexivity.
Defined.

(** X9: [handle_light_state_change] performs at most one call, and it
    performs one only while turning the switch on: the switch was off, the
    light had been off, the restore mode is always-on, and the switch ends
    on. *)
Theorem handle_light_state_change_calls
    (w : World) (c : AdaptiveLightningComponent) :
  (length (snd (handle_light_state_change w c)) <= 1)%nat /\
  (snd (handle_light_state_change w c) <> [] ->
   state c = false /\ previous_light_state_ c = false /\
   restore_mode c = SWITCH_ALWAYS_ON /\
   state (fst (handle_light_state_change w c)) = true).
Proof.
  unfold handle_light_state_change.
  destruct (light_ w) as [light |]; [| simpl; split; [lia | congruence]].
  cbv zeta. destruct (is_on light); [| simpl; split; [lia | congruence]].
  destruct (state c) eqn:Hon.
  - (* enabled: either self-disable or nothing *)
    destruct (true && gt (last_requested_color_temp_ c) 0
              && gt (fabs (get_color_temperature light
                           - last_requested_color_temp_ c)) 0.1).
    + rewrite write_state_disable by assumption. simpl.
      split; [lia | congruence].
    + rewrite andb_false_r. simpl. split; [lia | congruence].
  - simpl.
    destruct (negb (previous_light_state_ c) && true
              && is_always_on (restore_mode c)) eqn:Hedge.
    + rewrite write_state_enable by assumption. simpl fst. simpl snd.
      apply andb_true_iff in Hedge. destruct Hedge as [Hedge Hmode].
      apply andb_true_iff in Hedge. destruct Hedge as [Hprev _].
      apply negb_true_iff in Hprev.
      pose proof (update_frame w (publish_state true (force_next_update c)))
        as [Hstate _].
      split; [apply update_writes_calls |].
      intros _. repeat split; try assumption.
      destruct (restore_mode c); try discriminate. reflexivity.
    + simpl. split; [lia | congruence].
Qed.

(** X10: the loop closes after one call.  When [update] has performed a
    call and the light then reports itself on with a colour within 0.1 of
    the one requested, at the same instant of the sun provider,
    [handle_light_state_change] only records the light as on, and a
    [handle_target_state_reached] and a further [update] after it perform no
    call and change nothing. *)
Theorem update_echo_settles
    (w w' : World) (light' : LightColorValues)
    (c c1 : AdaptiveLightningComponent) (call : LightCall) :
  update w c = (c1, [call]) ->
  light_ w' = Some light' -> is_on light' = true -> sun_ w' = sun_ w ->
  fabs (get_color_temperature light' - color_temperature call) <= 0.1 ->
  let c2 := set_previous_light_state_ true c1 in
  handle_light_state_change w' c1 = (c2, []) /\
  handle_target_state_reached w' c2 = (c2, []) /\
  update w' c2 = (c2, []).
Proof.
  intros Hupd Hl' Hlit' Hsame Hecho. cbv zeta.
  destruct (update_inv_full w c c1 [call] Hupd)
    as [[_ Hnil] | [light [sun [sunrise_ts [sunset_ts
         [_ [Hsun [Hon [_ [Hr [Hs [_ [-> Hcall]]]]]]]]]]]]];
    [discriminate |].
  injection Hcall as ->.
  assert (Hsettled :
    update w' (set_previous_light_state_ true
                 (set_last_requested_color_temp_
                    (calc_color_temperature c (now sun) sunrise_ts sunset_ts) c))
    = (set_previous_light_state_ true
         (set_last_requested_color_temp_
            (calc_color_temperature c (now sun) sunrise_ts sunset_ts) c), [])).
  { apply (update_settled w' _ sun sunrise_ts sunset_ts);
      try assumption; [congruence | reflexivity]. }
  split; [| split].
  - apply (handle_light_state_change_quiet w' light'); try assumption.
    + right. right. exact Hecho.
    + left. exact Hon.
  - unfold handle_target_state_reached. rewrite Hl'.
    destruct (previous_light_state_ _ && state _);
      [exact Hsettled | reflexivity].
  - exact Hsettled.
Qed.

(** The tick at 12:00 requests 153.0 and the light echoes it. *)
Lemma update_echo_settles_witness :
  update (world (light_at true 153) noon) (component true 153 true)
  = (component true 153 true, []).
Proof.
  assert (Hecho : fabs (get_color_temperature (light_at true 153)
                        - color_temperature
                            (call_for (component true 0 true)
                               (light_at true 400) 153)) <= 0.1).
  { simpl. unfold fabs. rewrite Rminus_diag, Rabs_R0. lra. }
  destruct (update_echo_settles
              (world (light_at true 400) noon) (world (light_at true 153) noon)
              (light_at true 153) (component true 0 true)
              (component true 153 true)
              (call_for (component true 0 true) (light_at true 400) 153)
              update_noon eq_refl eq_refl eq_refl Hecho)
    as [_ [_ Hquiet]].
  exact Hquiet.
Defined.

(** X15: [handle_target_state_reached] does nothing without a light,
    when the light was last seen off or when the switch is off; in every
    case it performs at most one call and leaves the switch,
    [previous_light_state_] and the configuration as they are. *)
Theorem handle_target_state_reached_frame
    (w : World) (c : AdaptiveLightningComponent) :
  (light_ w = None \/ previous_light_state_ c = false \/ state c = false ->
   handle_target_state_reached w c = (c, [])) /\
  (length (snd (handle_target_state_reached w c)) <= 1)%nat /\
  state (fst (handle_target_state_reached w c)) = state c /\
  previous_light_state_ (fst (handle_target_state_reached w c))
  = previous_light_state_ c /\
  same_configuration c (fst (handle_target_state_reached w c)).
Proof.
  unfold handle_target_state_reached. split.
  - intros [H | [H | H]].
    + rewrite H. reflexivity.
    + rewrite H. destruct (light_ w); reflexivity.
    + rewrite H, andb_false_r. destruct (light_ w); reflexivity.
  - destruct (light_ w) as [light |];
      [| simpl; repeat split; lia].
    destruct (previous_light_state_ c && state c);
      [| simpl; repeat split; lia].
    pose proof (update_frame w c) as [Hstate Hprev].
    pose proof (update_configuration w c) as Hcfg.
    pose proof (update_writes_calls w c) as Hlen.
    repeat split; try assumption; apply Hcfg.
Qed.

End ControllerMore.

(** ** Properties of [setup] *)
Module SetupSpec.
Import std stdFacts Controller Setup Frame.

Lemma le_true_iff (x y : R) : le x y = true <-> x <= y.
Proof.
  unfold le. destruct (Rle_dec x y) as [H | H]; split; intro K;
    try reflexivity; try assumption; try discriminate; contradiction.
Qed.

Lemma le_false_iff (x y : R) : le x y = false <-> y < x.
Proof.
  unfold le. destruct (Rle_dec x y) as [H | H]; split; intro K;
    try reflexivity; try discriminate; lra.
Qed.

(** X11: [setup] with a light keeps each configured bound (one above 0)
    and takes each unset bound (one at or below 0) from the light's traits,
    so with traits above 0 both bounds end above 0; without a light the
    bounds stay.  It turns the switch on exactly when the restore mode is
    always-on, and leaves the rest of the component alone. *)
Theorem setup_result (traits : LightTraits) (c : AdaptiveLightningComponent) :
  let c' := setup (Some traits) c in
  (0 < min_mireds_ c -> min_mireds_ c' = min_mireds_ c) /\
  (min_mireds_ c <= 0 -> min_mireds_ c' = get_min_mireds traits) /\
  (0 < max_mireds_ c -> max_mireds_ c' = max_mireds_ c) /\
  (max_mireds_ c <= 0 -> max_mireds_ c' = get_max_mireds traits) /\
  (0 < get_min_mireds traits -> 0 < get_max_mireds traits ->
   0 < min_mireds_ c' /\ 0 < max_mireds_ c') /\
  (min_mireds_ (setup None c) = min_mireds_ c /\
   max_mireds_ (setup None c) = max_mireds_ c) /\
  state c' = (is_always_on (restore_mode c) || state c) /\
  state (setup None c) = (is_always_on (restore_mode c) || state c) /\
  speed_ c' = speed_ c /\ transition_length_ c' = transition_length_ c /\
  restore_mode c' = restore_mode c /\
  last_requested_color_temp_ c' = last_requested_color_temp_ c /\
  previous_light_state_ c' = previous_light_state_ c.
Proof.
  cbv zeta. unfold setup.
  destruct (le (min_mireds_ c) 0) eqn:Hmin;
    destruct (le (max_mireds_ c) 0) eqn:Hmax;
    cbn [set_min_mireds_ set_max_mireds_ min_mireds_ max_mireds_ restore_mode];
    rewrite ?Hmax;
    cbn [set_min_mireds_ set_max_mireds_ min_mireds_ max_mireds_ restore_mode];
    destruct (is_always_on (restore_mode c)) eqn:Hmode;
    cbn;
    try apply le_true_iff in Hmin; try apply le_false_iff in Hmin;
    try apply le_true_iff in Hmax; try apply le_false_iff in Hmax;
    repeat split; try reflexivity; intros; try lra.
Qed.

End SetupSpec.
